(** * Selective DWRF reader construction and remaining-filter extraction

    A shallow embedding of
    - [velox/dwio/dwrf/reader/SelectiveDwrfReader.cpp]
      ([buildIntegerReader] and [SelectiveDwrfReader::build]), and
    - the filter extraction declared in
      [velox/connectors/hive/HiveDataSource.h].

    C++ exceptions are values of [DwioException]; the reads of the stripe's
    encoding table are recorded, in order, next to the result.  A column
    reader is represented by the constructor call that [build] makes: the
    class and the arguments handed to it. *)

From stdpp Require Import base strings list gmap.
From Stdlib Require Import ZArith Lia.

#[local] Set Warnings "-register-all".
Local Open Scope string_scope.

(* ===================================================================== *)
(** ** velox/type *)
(* ===================================================================== *)

(** Modelled from the spec: [TypeKind] (velox/type/Type.h is not among the
    sources).  Section 3 lists the logical kinds; [build] names the first
    fourteen enumerators below, and the remaining enumerators of the
    header reach only its [default:] label. *)
Inductive TypeKind :=
| BOOLEAN | TINYINT | SMALLINT | INTEGER | BIGINT | REAL | DOUBLE
| VARCHAR | VARBINARY | TIMESTAMP | HUGEINT
| ARRAY | MAP | ROW
| UNKNOWN | FUNCTION | OPAQUE | INVALID.

#[global] Instance TypeKind_eq_dec : EqDecision TypeKind.
Proof. solve_decision. Defined.

(** Modelled from the spec: [mapTypeKindToName] (velox/type/Type.h).
    Section 4.1 has the error message identify the offending kind: the
    name of a kind is the spelling of its enumerator. *)
Definition mapTypeKindToName (k : TypeKind) : string :=
  match k with
  | BOOLEAN => "BOOLEAN" | TINYINT => "TINYINT" | SMALLINT => "SMALLINT"
  | INTEGER => "INTEGER" | BIGINT => "BIGINT" | REAL => "REAL"
  | DOUBLE => "DOUBLE" | VARCHAR => "VARCHAR" | VARBINARY => "VARBINARY"
  | TIMESTAMP => "TIMESTAMP" | HUGEINT => "HUGEINT"
  | ARRAY => "ARRAY" | MAP => "MAP" | ROW => "ROW"
  | UNKNOWN => "UNKNOWN" | FUNCTION => "FUNCTION" | OPAQUE => "OPAQUE"
  | INVALID => "INVALID"
  end.

(** Modelled from the spec: [velox::Type] as [build] observes it, through
    [kind()], [isDecimal()] and the child types.  Section 3: a decimal
    carries its precision and scale. *)
Inductive Type_ :=
| mkType (kind : TypeKind) (decimal : option (nat * nat))
         (children : list Type_).

Definition kind (t : Type_) : TypeKind :=
  match t with mkType k _ _ => k end.

Definition isDecimal (t : Type_) : bool :=
  match t with mkType _ (Some _) _ => true | mkType _ None _ => false end.

(* ===================================================================== *)
(** ** velox/common: filters and the scan specification *)
(* ===================================================================== *)

(** Modelled from the spec: [common::Filter] (velox/type/Filter.h is not
    among the sources).  Section 6 describes a closed value-predicate
    representation with ranges and null checks; a bound [None] is an
    absent bound. *)
Inductive Filter :=
| AlwaysFalse
| IsNull
| IsNotNull
| BigintRange (lower upper : option Z) (nullAllowed : bool).

(** Modelled from the spec: [common::ScanSpec] (velox/dwio/common/ScanSpec.h
    is not among the sources).  Section 3: a tree mirroring the output
    schema whose nodes carry an optional filter, the projected-out flag and
    the selected children. *)
Inductive ScanSpec :=
| mkScanSpec (fieldName : string) (filter : option Filter)
             (projectOut : bool) (childSpecs : list ScanSpec).

(* ===================================================================== *)
(** ** velox/dwio/common and velox/dwio/dwrf: what [build] reads *)
(* ===================================================================== *)

(** [dwio::common::TypeWithId], through [type()] and [id()]. *)
Record TypeWithId := {
  type : Type_;
  id : N
}.

Module proto.
(** Modelled from the spec: [proto::ColumnEncoding_Kind] and
    [proto::ColumnEncoding] (the generated protobuf header is not among the
    sources).  Section 3 lists the five encoding kind tags. *)
Inductive ColumnEncoding_Kind :=
| ColumnEncoding_Kind_DIRECT
| ColumnEncoding_Kind_DICTIONARY
| ColumnEncoding_Kind_DIRECT_V2
| ColumnEncoding_Kind_DICTIONARY_V2
| ColumnEncoding_Kind_MAP_FLAT.

#[global] Instance ColumnEncoding_Kind_eq_dec :
  EqDecision ColumnEncoding_Kind.
Proof. solve_decision. Defined.

Record ColumnEncoding := {
  kind : ColumnEncoding_Kind
}.
End proto.
Export proto (ColumnEncoding_Kind(..)).

(** [EncodingKey{node, sequence}]: the stream identity of a column. *)
Record EncodingKey := {
  node : N;
  sequence_ : N
}.

(** [DwrfParams], through [stripeStreams()] and [flatMapContext()]. *)
Record FlatMapContext := {
  sequence : N
}.

(** [StripeStreams]: the encoding recorded in the stripe footer for every
    stream identity. *)
Record StripeStreams := {
  encodings : EncodingKey -> proto.ColumnEncoding
}.

Record DwrfParams := {
  stripeStreams : StripeStreams;
  flatMapContext : FlatMapContext
}.

(** Modelled from the spec: the byte widths of the integer kinds (the
    constants are declared outside the sources).  Section 4.1: the integer
    readers are specialised by width, and BIGINT is read with 8 bytes. *)
Definition INT_BYTE_SIZE : N := 4.
Definition LONG_BYTE_SIZE : N := 8.
Definition SHORT_BYTE_SIZE : N := 2.

(* ===================================================================== *)
(** ** Exceptions and the construction monad *)
(* ===================================================================== *)

(** What the three throwing constructs used by [build] raise. *)
Inductive DwioException :=
| EnsureFailed (message : string)         (* DWIO_ENSURE(false, message) *)
| Raised (message : string)               (* DWIO_RAISE(message) *)
| IncompatibleTypes (from to : Type_).    (* checkTypeCompatibility *)

(** A computation lists the encoding keys it looked up in the stripe and
    either throws or returns. *)
Definition Dwio (A : Type) : Type :=
  (list EncodingKey * (DwioException + A))%type.

Definition ret {A} (a : A) : Dwio A := ([], inr a).

Definition throw {A} (e : DwioException) : Dwio A := ([], inl e).

Definition bind {A B} (m : Dwio A) (k : A -> Dwio B) : Dwio B :=
  match m with
  | (reads, inl e) => (reads, inl e)
  | (reads, inr a) =>
      match k a with
      | (reads', r) => ((reads ++ reads')%list, r)
      end
  end.

Notation "x <- m ;; k" := (bind m (fun x => k))
  (at level 100, m at next level, right associativity).
Notation "m ;; k" := (bind m (fun _ => k))
  (at level 100, right associativity).

Definition DWIO_ENSURE (cond : bool) (message : string) : Dwio unit :=
  if cond then ret tt else throw (EnsureFailed message).

Definition DWIO_RAISE {A} (message : string) : Dwio A :=
  throw (Raised message).

(** [stripe.getEncoding(ek)]. *)
Definition getEncoding (stripe : StripeStreams) (ek : EncodingKey)
  : Dwio proto.ColumnEncoding :=
  ([ek], inr (encodings stripe ek)).

(* ===================================================================== *)
(** ** velox/dwio/common/TypeUtils: the compatibility check *)
(* ===================================================================== *)

(** Modelled from the spec: the widening table of
    [typeutils::checkTypeCompatibility] (velox/dwio/common/TypeUtils.cpp is
    not among the sources).  Sections 3 and 4.1: a kind is compatible with
    itself, and the documented primitive widening is a REAL column read as
    DOUBLE. *)
Definition isCompatibleKind (from to : TypeKind) : bool :=
  bool_decide (from = to) ||
  match from, to with
  | REAL, DOUBLE => true
  | _, _ => false
  end.

(** Modelled from the spec: the structural part of
    [typeutils::checkTypeCompatibility].  Section 4.1: the two types have
    the same arity and compatible kinds at every level. *)
Fixpoint compatible (from to : Type_) : bool :=
  match from, to with
  | mkType fk _ fcs, mkType tk _ tcs =>
      isCompatibleKind fk tk &&
      (fix all2 (l1 l2 : list Type_) {struct l1} : bool :=
         match l1, l2 with
         | [], [] => true
         | a :: l1', b :: l2' => compatible a b && all2 l1' l2'
         | _, _ => false
         end) fcs tcs
  end.

(** Modelled from the spec: [typeutils::checkTypeCompatibility(from, to)],
    which returns normally on a compatible pair and throws otherwise. *)
Definition checkTypeCompatibility (from to : Type_) : Dwio unit :=
  if compatible from to then ret tt else throw (IncompatibleTypes from to).

(** The shape of a type: whether it is an ARRAY, a MAP, a ROW or a scalar,
    with the shapes of its children. *)
Inductive Shape :=
| Scalar
| Composite (k : TypeKind) (children : list Shape).

Fixpoint shapeOf (t : Type_) : Shape :=
  match t with
  | mkType k _ cs =>
      match k with
      | ARRAY | MAP | ROW => Composite k (List.map shapeOf cs)
      | _ => Scalar
      end
  end.

(* ===================================================================== *)
(** ** The column readers [build] can construct *)
(* ===================================================================== *)

(** The template arguments of [SelectiveFloatingPointColumnReader] and of
    [SelectiveDecimalColumnReader]. *)
Inductive FloatingPoint := float | double.
Inductive DecimalInt := int64_t | int128_t.

(** One constructor per reader class instantiated in
    SelectiveDwrfReader.cpp, with the arguments in the order of the call;
    [SelectiveFlatMapColumnReader] stands for the call of the factory
    [createSelectiveFlatMapColumnReader].  The second template argument of
    the floating-point reader is the element type it outputs. *)
Inductive SelectiveColumnReader :=
| SelectiveIntegerDictionaryColumnReader
    (requestedType dataType : TypeWithId) (params : DwrfParams)
    (scanSpec : ScanSpec) (numBytes : N)
| SelectiveIntegerDirectColumnReader
    (requestedType dataType : TypeWithId) (params : DwrfParams)
    (numBytes : N) (scanSpec : ScanSpec)
| SelectiveDecimalColumnReader
    (DataT : DecimalInt)
    (requestedType : TypeWithId) (params : DwrfParams) (scanSpec : ScanSpec)
| SelectiveListColumnReader
    (requestedType dataType : TypeWithId) (params : DwrfParams)
    (scanSpec : ScanSpec)
| SelectiveFlatMapColumnReader
    (requestedType dataType : TypeWithId) (params : DwrfParams)
    (scanSpec : ScanSpec)
| SelectiveMapColumnReader
    (requestedType dataType : TypeWithId) (params : DwrfParams)
    (scanSpec : ScanSpec)
| SelectiveFloatingPointColumnReader
    (TData TRequested : FloatingPoint)
    (requestedType : Type_) (dataType : TypeWithId) (params : DwrfParams)
    (scanSpec : ScanSpec)
| SelectiveStructColumnReader
    (requestedType dataType : TypeWithId) (params : DwrfParams)
    (scanSpec : ScanSpec) (isRoot : bool)
| SelectiveByteRleColumnReader
    (requestedType dataType : TypeWithId) (params : DwrfParams)
    (scanSpec : ScanSpec) (isBool : bool)
| SelectiveStringDirectColumnReader
    (dataType : TypeWithId) (params : DwrfParams) (scanSpec : ScanSpec)
| SelectiveStringDictionaryColumnReader
    (dataType : TypeWithId) (params : DwrfParams) (scanSpec : ScanSpec)
| SelectiveTimestampColumnReader
    (dataType : TypeWithId) (params : DwrfParams) (scanSpec : ScanSpec).

(* ===================================================================== *)
(** ** SelectiveDwrfReader.cpp *)
(* ===================================================================== *)

Definition buildIntegerReader
    (requestedType dataType : TypeWithId) (params : DwrfParams)
    (numBytes : N) (scanSpec : ScanSpec) : Dwio SelectiveColumnReader :=
  let ek := {| node := id dataType;
               sequence_ := sequence (flatMapContext params) |} in
  let stripe := stripeStreams params in
  encoding <- getEncoding stripe ek ;;
  match proto.kind encoding with
  | ColumnEncoding_Kind_DICTIONARY
  | ColumnEncoding_Kind_DICTIONARY_V2 =>
      ret (SelectiveIntegerDictionaryColumnReader
             requestedType dataType params scanSpec numBytes)
  | ColumnEncoding_Kind_DIRECT
  | ColumnEncoding_Kind_DIRECT_V2 =>
      ret (SelectiveIntegerDirectColumnReader
             requestedType dataType params numBytes scanSpec)
  | _ => DWIO_RAISE "buildReader unhandled integer encoding"
  end.

Definition build
    (requestedType dataType : TypeWithId) (params : DwrfParams)
    (scanSpec : ScanSpec) (isRoot : bool) : Dwio SelectiveColumnReader :=
  DWIO_ENSURE
    (negb isRoot || bool_decide (kind (type dataType) = ROW))
    "The root object can only be a row." ;;
  checkTypeCompatibility (type dataType) (type requestedType) ;;
  let ek := {| node := id dataType;
               sequence_ := sequence (flatMapContext params) |} in
  let stripe := stripeStreams params in
  let unhandled : Dwio SelectiveColumnReader :=
    DWIO_RAISE ("buildReader unhandled type: " +:+
                mapTypeKindToName (kind (type dataType))) in
  match kind (type dataType) with
  | INTEGER =>
      buildIntegerReader requestedType dataType params INT_BYTE_SIZE scanSpec
  | BIGINT =>
      if isDecimal (type dataType) then
        ret (SelectiveDecimalColumnReader int64_t
               requestedType params scanSpec)
      else
        buildIntegerReader
          requestedType dataType params LONG_BYTE_SIZE scanSpec
  | SMALLINT =>
      buildIntegerReader
        requestedType dataType params SHORT_BYTE_SIZE scanSpec
  | ARRAY =>
      ret (SelectiveListColumnReader requestedType dataType params scanSpec)
  | MAP =>
      encoding <- getEncoding stripe ek ;;
      if bool_decide (proto.kind encoding = ColumnEncoding_Kind_MAP_FLAT) then
        ret (SelectiveFlatMapColumnReader
               requestedType dataType params scanSpec)
      else
        ret (SelectiveMapColumnReader requestedType dataType params scanSpec)
  | REAL =>
      if bool_decide (kind (type requestedType) = REAL) then
        ret (SelectiveFloatingPointColumnReader float float
               (type requestedType) dataType params scanSpec)
      else
        ret (SelectiveFloatingPointColumnReader float double
               (type requestedType) dataType params scanSpec)
  | DOUBLE =>
      ret (SelectiveFloatingPointColumnReader double double
             (type requestedType) dataType params scanSpec)
  | ROW =>
      ret (SelectiveStructColumnReader
             requestedType dataType params scanSpec isRoot)
  | BOOLEAN =>
      ret (SelectiveByteRleColumnReader
             requestedType dataType params scanSpec true)
  | TINYINT =>
      ret (SelectiveByteRleColumnReader
             requestedType dataType params scanSpec false)
  | VARBINARY
  | VARCHAR =>
      encoding <- getEncoding stripe ek ;;
      match proto.kind encoding with
      | ColumnEncoding_Kind_DIRECT
      | ColumnEncoding_Kind_DIRECT_V2 =>
          ret (SelectiveStringDirectColumnReader dataType params scanSpec)
      | ColumnEncoding_Kind_DICTIONARY
      | ColumnEncoding_Kind_DICTIONARY_V2 =>
          ret (SelectiveStringDictionaryColumnReader dataType params scanSpec)
      | _ => DWIO_RAISE "buildReader string unknown encoding"
      end
  | TIMESTAMP =>
      ret (SelectiveTimestampColumnReader dataType params scanSpec)
  | HUGEINT =>
      if isDecimal (type dataType) then
        ret (SelectiveDecimalColumnReader int128_t
               requestedType params scanSpec)
      else
        unhandled
  | _ => unhandled
  end.

(* ===================================================================== *)
(** ** velox/connectors/hive: remaining-filter extraction *)
(* ===================================================================== *)

(** A row gives every column a bigint value or NULL; a batch is a list of
    rows. *)
Definition Row : Type := string -> option Z.
Definition RowVector : Type := list Row.

Abbreviation SubfieldFilters := (gmap string Filter).

Definition aboveLower (lower : option Z) (x : Z) : bool :=
  match lower with Some l => (l <=? x)%Z | None => true end.

Definition belowUpper (upper : option Z) (x : Z) : bool :=
  match upper with Some u => (x <=? u)%Z | None => true end.

(** Modelled from the spec: [Filter::testInt64] / [Filter::testNull], the
    value predicate a filter stands for (section 6). *)
Definition testFilter (f : Filter) (v : option Z) : bool :=
  match f, v with
  | AlwaysFalse, _ => false
  | IsNull, None => true
  | IsNull, Some _ => false
  | IsNotNull, None => false
  | IsNotNull, Some _ => true
  | BigintRange _ _ nullAllowed, None => nullAllowed
  | BigintRange lower upper _, Some x => aboveLower lower x && belowUpper upper x
  end.

Definition maxLower (a b : option Z) : option Z :=
  match a, b with
  | Some x, Some y => Some (Z.max x y)
  | Some x, None => Some x
  | None, _ => b
  end.

Definition minUpper (a b : option Z) : option Z :=
  match a, b with
  | Some x, Some y => Some (Z.min x y)
  | Some x, None => Some x
  | None, _ => b
  end.

(** Modelled from the spec: [Filter::mergeWith], the conjunction of two
    filters on one column (sections 3 and 4.3). *)
Definition mergeWith (f g : Filter) : Filter :=
  match f, g with
  | AlwaysFalse, _ | _, AlwaysFalse => AlwaysFalse
  | IsNull, IsNull => IsNull
  | IsNull, IsNotNull | IsNotNull, IsNull => AlwaysFalse
  | IsNull, BigintRange _ _ nullAllowed
  | BigintRange _ _ nullAllowed, IsNull =>
      if nullAllowed then IsNull else AlwaysFalse
  | IsNotNull, IsNotNull => IsNotNull
  | IsNotNull, BigintRange lower upper _
  | BigintRange lower upper _, IsNotNull => BigintRange lower upper false
  | BigintRange l1 u1 n1, BigintRange l2 u2 n2 =>
      BigintRange (maxLower l1 l2) (minUpper u1 u2) (n1 && n2)
  end.

Inductive CompareOp := cmp_eq | cmp_neq | cmp_lt | cmp_lte | cmp_gt | cmp_gte.

Definition compare (op : CompareOp) (x y : Z) : bool :=
  match op with
  | cmp_eq => (x =? y)%Z
  | cmp_neq => negb (x =? y)%Z
  | cmp_lt => (x <? y)%Z
  | cmp_lte => (x <=? y)%Z
  | cmp_gt => (y <? x)%Z
  | cmp_gte => (y <=? x)%Z
  end.

(** Modelled from the spec: the residual boolean expressions of section
    4.3 ([core::TypedExpr] is not among the sources): comparisons of one
    column with a constant, ranges, null checks, comparisons of two
    columns, calls of other functions, and the connectives. *)
Inductive TypedExpr :=
| FieldCompare (op : CompareOp) (field : string) (value : Z)
| FieldBetween (field : string) (lower upper : Z)
| FieldIsNull (field : string)
| ColumnsCompare (op : CompareOp) (lhs rhs : string)
| Call (name : string) (fields : list string)
| ExprNot (input : TypedExpr)
| ExprAnd (lhs rhs : TypedExpr)
| ExprOr (lhs rhs : TypedExpr).

(** Modelled from the spec: [core::ExpressionEvaluator], the collaborator
    of section 6 that gives the functions of the engine their meaning. *)
Record ExpressionEvaluator := {
  callFunction : string -> list (option Z) -> option bool
}.

Definition and3 (a b : option bool) : option bool :=
  match a, b with
  | Some false, _ | _, Some false => Some false
  | Some true, Some true => Some true
  | _, _ => None
  end.

Definition or3 (a b : option bool) : option bool :=
  match a, b with
  | Some true, _ | _, Some true => Some true
  | Some false, Some false => Some false
  | _, _ => None
  end.

(** The value of an expression on one row, with NULL as [None]. *)
Fixpoint evaluateRow (evaluator : ExpressionEvaluator) (expr : TypedExpr)
    (row : Row) : option bool :=
  match expr with
  | FieldCompare op field value =>
      match row field with
      | Some x => Some (compare op x value)
      | None => None
      end
  | FieldBetween field lower upper =>
      match row field with
      | Some x => Some ((lower <=? x)%Z && (x <=? upper)%Z)
      | None => None
      end
  | FieldIsNull field =>
      match row field with Some _ => Some false | None => Some true end
  | ColumnsCompare op lhs rhs =>
      match row lhs, row rhs with
      | Some x, Some y => Some (compare op x y)
      | _, _ => None
      end
  | Call name fields => callFunction evaluator name (List.map row fields)
  | ExprNot input => negb <$> evaluateRow evaluator input row
  | ExprAnd lhs rhs =>
      and3 (evaluateRow evaluator lhs row) (evaluateRow evaluator rhs row)
  | ExprOr lhs rhs =>
      or3 (evaluateRow evaluator lhs row) (evaluateRow evaluator rhs row)
  end.

(** A row passes a filter expression when the expression is true on it. *)
Definition passes (evaluator : ExpressionEvaluator) (expr : TypedExpr)
    (row : Row) : bool :=
  bool_decide (evaluateRow evaluator expr row = Some true).

(** The selection an expression makes in a batch; a null expression selects
    every row. *)
Definition evaluate (evaluator : ExpressionEvaluator)
    (expr : option TypedExpr) (batch : RowVector) : list bool :=
  match expr with
  | Some e => List.map (passes evaluator e) batch
  | None => List.map (fun _ => true) batch
  end.

(** The selection the conjunction of the per-column filters makes. *)
Definition testFilters (filters : SubfieldFilters) (row : Row) : bool :=
  bool_decide (map_Forall (fun field f => testFilter f (row field) = true)
                          filters).

Definition evaluateFilters (filters : SubfieldFilters) (batch : RowVector)
  : list bool :=
  List.map (testFilters filters) batch.

(** Modelled from the spec: [exec::leafCallToSubfieldFilter] (not among the
    sources).  Section 4.3: a single-column comparison, range or null check
    that the filter model can express becomes a filter on that column;
    [negated] flips the comparison. *)
Definition leafCallToSubfieldFilter (expr : TypedExpr) (negated : bool)
  : option (string * Filter) :=
  match expr with
  | FieldCompare op field value =>
      match op, negated with
      | cmp_eq, false | cmp_neq, true =>
          Some (field, BigintRange (Some value) (Some value) false)
      | cmp_lt, false | cmp_gte, true =>
          Some (field, BigintRange None (Some (value - 1)%Z) false)
      | cmp_lte, false | cmp_gt, true =>
          Some (field, BigintRange None (Some value) false)
      | cmp_gt, false | cmp_lte, true =>
          Some (field, BigintRange (Some (value + 1)%Z) None false)
      | cmp_gte, false | cmp_lt, true =>
          Some (field, BigintRange (Some value) None false)
      | cmp_eq, true | cmp_neq, false => None
      end
  | FieldBetween field lower upper =>
      if negated then None
      else Some (field, BigintRange (Some lower) (Some upper) false)
  | FieldIsNull field =>
      Some (field, if negated then IsNotNull else IsNull)
  | _ => None
  end.

(** Merging an extracted filter into the filters of its column. *)
Definition mergeInto (field : string) (f : Filter)
    (filters : SubfieldFilters) : SubfieldFilters :=
  match filters !! field with
  | Some old => <[field := mergeWith f old]> filters
  | None => <[field := f]> filters
  end.

(** Modelled from the spec: [HiveDataSource::extractFiltersFromRemainingFilter]
    (declared in HiveDataSource.h, defined outside the sources).  Section
    4.3: pushable sub-predicates are removed from the expression and merged
    into the filters of their column, [negated] records an enclosing NOT,
    and every other predicate is returned untouched.  The result pairs the
    returned expression (null when nothing remains) with the updated
    filters. *)
Fixpoint extractFiltersFromRemainingFilter
    (expr : TypedExpr) (evaluator : ExpressionEvaluator) (negated : bool)
    (filters : SubfieldFilters) : option TypedExpr * SubfieldFilters :=
  match leafCallToSubfieldFilter expr negated with
  | Some (field, f) => (None, mergeInto field f filters)
  | None =>
      let both (lhs rhs : TypedExpr) (rebuild : TypedExpr -> TypedExpr -> TypedExpr) :=
        let '(l, filters1) :=
          extractFiltersFromRemainingFilter lhs evaluator negated filters in
        let '(r, filters2) :=
          extractFiltersFromRemainingFilter rhs evaluator negated filters1 in
        match l, r with
        | None, _ => (r, filters2)
        | _, None => (l, filters2)
        | Some l', Some r' => (Some (rebuild l' r'), filters2)
        end in
      match expr with
      | ExprNot input =>
          let '(inner, filters') :=
            extractFiltersFromRemainingFilter
              input evaluator (negb negated) filters in
          (ExprNot <$> inner, filters')
      | ExprAnd lhs rhs =>
          if negated then (Some expr, filters) else both lhs rhs ExprAnd
      | ExprOr lhs rhs =>
          if negated then both lhs rhs ExprOr else (Some expr, filters)
      | _ => (Some expr, filters)
      end
  end.

(* ===================================================================== *)
(** ** Vocabulary of the statements *)
(* ===================================================================== *)

(** The stream identity [build] looks a column up under, and the encoding
    the stripe records for it. *)
Definition encodingKeyOf (dataType : TypeWithId) (params : DwrfParams)
  : EncodingKey :=
  {| node := id dataType; sequence_ := sequence (flatMapContext params) |}.

Definition encodingOf (dataType : TypeWithId) (params : DwrfParams)
  : ColumnEncoding_Kind :=
  proto.kind (encodings (stripeStreams params) (encodingKeyOf dataType params)).

(** The logical kinds that have a row in the dispatch table of section
    4.1. *)
Definition dispatchTable : list TypeKind :=
  [INTEGER; SMALLINT; BIGINT; HUGEINT; BOOLEAN; TINYINT; REAL; DOUBLE;
   VARCHAR; VARBINARY; TIMESTAMP; ARRAY; MAP; ROW].

(** An expression lets a row through: it is true on the row, or false when
    it stands under a NOT; a null expression lets every row through. *)
Definition holds (evaluator : ExpressionEvaluator) (negated : bool)
    (expr : option TypedExpr) (row : Row) : bool :=
  match expr with
  | Some e => bool_decide (evaluateRow evaluator e row = Some (negb negated))
  | None => true
  end.

(** Concrete inputs: a scalar column, a decimal column, a composite
    column, a stripe in which every stream has one encoding, and a scan
    spec node. *)
Definition scalarColumn (k : TypeKind) (columnId : N) : TypeWithId :=
  {| type := mkType k None []; id := columnId |}.

Definition decimalColumn (k : TypeKind) (precision scale : nat)
    (columnId : N) : TypeWithId :=
  {| type := mkType k (Some (precision, scale)) []; id := columnId |}.

Definition compositeColumn (k : TypeKind) (cs : list TypeKind)
    (columnId : N) : TypeWithId :=
  {| type := mkType k None (List.map (fun c => mkType c None []) cs);
     id := columnId |}.

Definition stripeOf (encoding : ColumnEncoding_Kind) : DwrfParams :=
  {| stripeStreams :=
       {| encodings := fun _ =>
            {| proto.kind := encoding |} |};
     flatMapContext := {| sequence := 0 |} |}.

Definition columnSpec (name : string) : ScanSpec :=
  mkScanSpec name None true [].

Definition noFunctions : ExpressionEvaluator :=
  {| callFunction := fun _ _ => None |}.

(* ===================================================================== *)
(** ** What a constructed reader was given *)
(* ===================================================================== *)

(** The [DwrfParams] and the [ScanSpec] handed to the constructor of a
    reader; every reader class takes both. *)
Definition readerParams (r : SelectiveColumnReader) : DwrfParams :=
  match r with
  | SelectiveIntegerDictionaryColumnReader _ _ p _ _
  | SelectiveIntegerDirectColumnReader _ _ p _ _
  | SelectiveDecimalColumnReader _ _ p _
  | SelectiveListColumnReader _ _ p _
  | SelectiveFlatMapColumnReader _ _ p _
  | SelectiveMapColumnReader _ _ p _
  | SelectiveFloatingPointColumnReader _ _ _ _ p _
  | SelectiveStructColumnReader _ _ p _ _
  | SelectiveByteRleColumnReader _ _ p _ _
  | SelectiveStringDirectColumnReader _ p _
  | SelectiveStringDictionaryColumnReader _ p _
  | SelectiveTimestampColumnReader _ p _ => p
  end.

Definition readerScanSpec (r : SelectiveColumnReader) : ScanSpec :=
  match r with
  | SelectiveIntegerDictionaryColumnReader _ _ _ s _
  | SelectiveIntegerDirectColumnReader _ _ _ _ s
  | SelectiveDecimalColumnReader _ _ _ s
  | SelectiveListColumnReader _ _ _ s
  | SelectiveFlatMapColumnReader _ _ _ s
  | SelectiveMapColumnReader _ _ _ s
  | SelectiveFloatingPointColumnReader _ _ _ _ _ s
  | SelectiveStructColumnReader _ _ _ s _
  | SelectiveByteRleColumnReader _ _ _ s _
  | SelectiveStringDirectColumnReader _ _ s
  | SelectiveStringDictionaryColumnReader _ _ s
  | SelectiveTimestampColumnReader _ _ s => s
  end.

(** The data type handed to the constructor; the decimal reader is the one
    class that is not given it. *)
Definition readerDataType (r : SelectiveColumnReader) : option TypeWithId :=
  match r with
  | SelectiveIntegerDictionaryColumnReader _ d _ _ _
  | SelectiveIntegerDirectColumnReader _ d _ _ _
  | SelectiveListColumnReader _ d _ _
  | SelectiveFlatMapColumnReader _ d _ _
  | SelectiveMapColumnReader _ d _ _
  | SelectiveFloatingPointColumnReader _ _ _ d _ _
  | SelectiveStructColumnReader _ d _ _ _
  | SelectiveByteRleColumnReader _ d _ _ _
  | SelectiveStringDirectColumnReader d _ _
  | SelectiveStringDictionaryColumnReader d _ _
  | SelectiveTimestampColumnReader d _ _ => Some d
  | SelectiveDecimalColumnReader _ _ _ _ => None
  end.

(* ===================================================================== *)
(** ** HiveDataSource.h: the member functions defined in the class *)
(* ===================================================================== *)

Section HiveDataSource.
(** The collaborators the inline members go through: the split reader
    and its [allPrefetchIssued()], the I/O statistics and their
    [rawBytesRead()], and [RowVector::createEmpty(type, pool)], which
    allocates from the memory pool. *)
Context {SplitReader IoStatistics RowTypePtr RowVectorPtr MemoryPool : Type}.
Variable SplitReader_allPrefetchIssued : SplitReader -> bool.
Variable rawBytesRead : IoStatistics -> N.
Variable createEmpty : RowTypePtr -> MemoryPool -> RowVectorPtr * MemoryPool.

(** The members of [HiveDataSource] that the inline member functions read
    or write; a null pointer is [None]. *)
Record HiveDataSource := {
  splitReader_ : option SplitReader;
  outputType_ : RowTypePtr;
  ioStats_ : IoStatistics;
  emptyOutput_ : option RowVectorPtr;
  completedRows_ : N
}.

Definition getCompletedBytes (this : HiveDataSource) : N :=
  rawBytesRead (ioStats_ this).

Definition getCompletedRows (this : HiveDataSource) : N :=
  completedRows_ this.

Definition allPrefetchIssued (this : HiveDataSource) : bool :=
  match splitReader_ this with
  | Some reader => SplitReader_allPrefetchIssued reader
  | None => false
  end.

(** [getEmptyOutput()]: returns the cached empty vector, creating it on
    the first call.  The result is the vector with the data source and
    the pool after the call. *)
Definition getEmptyOutput (this : HiveDataSource) (pool_ : MemoryPool)
  : RowVectorPtr * HiveDataSource * MemoryPool :=
  match emptyOutput_ this with
  | Some v => (v, this, pool_)
  | None =>
      let '(v, pool') := createEmpty (outputType_ this) pool_ in
      (v,
       {| splitReader_ := splitReader_ this;
          outputType_ := outputType_ this;
          ioStats_ := ioStats_ this;
          emptyOutput_ := Some v;
          completedRows_ := completedRows_ this |},
       pool')
  end.
End HiveDataSource.

(* ===================================================================== *)
(** ** MergingVectorOutputBenchmark: [makeString] *)
(* ===================================================================== *)

(** The static vector [tokens] of [makeString]. *)
Definition tokens : list string :=
  ["epi"; "plectic"; "cary"; "ally"; "ously";
   "sly"; "suspect"; "account"; "apo"; "thetic";
   "hypo"; "hyper"; "nice"; "fluffy"; "hippocampus";
   "comfortable"; "cucurbit"; "lemon"; "avocado"; "specious";
   "phrenic"].

(** [tokens.size()]. *)
Definition tokens_size : Z := Z.of_nat (length tokens).

(** [tokens[i]]. *)
Definition token (i : Z) : string := nth (Z.to_nat i) tokens "".

(** The loop of [makeString]: while [n > 0], append [tokens[n % size]] to
    [result] and divide [n] by [size].  [fuel] bounds the number of
    iterations. *)
Fixpoint makeString_loop (fuel : nat) (n : Z) (result : string) : string :=
  match fuel with
  | O => result
  | S fuel' =>
      if (0 <? n)%Z then
        makeString_loop fuel' (n / tokens_size)%Z
                        (result +:+ token (n mod tokens_size)%Z)
      else result
  end.

(** [makeString(n)].  The loop halves [n] at least, so one more iteration
    than [n] has binary digits is enough. *)
Definition makeString (n : Z) : string :=
  makeString_loop (S (Z.to_nat (Z.log2 n))) n "".

(** [s] starts with [p]. *)
Fixpoint startsWith (p s : string) : bool :=
  match p, s with
  | EmptyString, _ => true
  | String a p', String b s' => bool_decide (a = b) && startsWith p' s'
  | String _ _, EmptyString => false
  end.

(* ===================================================================== *)
(** * Properties of the compatibility check *)
(* ===================================================================== *)

(** Induction on types that reaches the children of a node. *)
Lemma Type_nested_ind (P : Type_ -> Prop) :
  (forall k d cs, Forall P cs -> P (mkType k d cs)) -> forall t, P t.
Proof.
  intros step. fix IH 1. intros [k d cs]. apply step.
  induction cs as [|c cs IHcs]; constructor; [apply IH | exact IHcs].
Qed.

Lemma isCompatibleKind_refl k : isCompatibleKind k k = true.
Proof. unfold isCompatibleKind. rewrite bool_decide_eq_true_2; done. Qed.

(** The check is reflexive. *)
Lemma compatible_refl t : compatible t t = true.
Proof.
  induction t as [k d cs IH] using Type_nested_ind. simpl.
  rewrite isCompatibleKind_refl. simpl.
  induction IH as [|c cs Hc _ IHcs]; [done|].
  rewrite Hc. exact IHcs.
Qed.

Lemma isCompatibleKind_shape fk tk d1 d2 cs1 cs2 :
  isCompatibleKind fk tk = true ->
  List.map shapeOf cs1 = List.map shapeOf cs2 ->
  shapeOf (mkType fk d1 cs1) = shapeOf (mkType tk d2 cs2).
Proof.
  unfold isCompatibleKind. intros Hk Hcs.
  apply orb_true_iff in Hk as [Hk|Hk].
  - apply bool_decide_eq_true in Hk as ->. simpl. rewrite Hcs. done.
  - destruct fk, tk; try discriminate. done.
Qed.

(** Compatible types have the same shape. *)
Lemma compatible_shape from : forall to,
  compatible from to = true -> shapeOf from = shapeOf to.
Proof.
  induction from as [fk fd fcs IH] using Type_nested_ind.
  intros [tk td tcs] H. simpl in H.
  apply andb_true_iff in H as [Hk Hcs].
  apply isCompatibleKind_shape; [done|].
  clear Hk. revert tcs Hcs.
  induction IH as [|c cs Hc _ IHcs]; intros [|t tcs] Hcs;
    try discriminate; [done|].
  apply andb_true_iff in Hcs as [H1 H2]. simpl.
  f_equal; [by apply Hc | by apply IHcs].
Qed.

Lemma mapTypeKindToName_inj k1 k2 :
  mapTypeKindToName k1 = mapTypeKindToName k2 -> k1 = k2.
Proof. destruct k1, k2; simpl; intros H; first [reflexivity | discriminate H]. Qed.

(* ===================================================================== *)
(** * Properties of [SelectiveDwrfReader::build] *)
(* ===================================================================== *)

(** Runs the two precondition checks of [build] once the compatibility
    check is known to pass. *)
Ltac enter_build Hc :=
  unfold build, DWIO_ENSURE, checkTypeCompatibility;
  rewrite ?Hc; cbn [negb orb bind ret throw app].

Ltac run_dispatch :=
  unfold buildIntegerReader, getEncoding, DWIO_RAISE, encodingOf,
    encodingKeyOf in *;
  cbn [bind ret throw app].

(** A failed compatibility check ends [build] before the dispatch. *)
Lemma build_rejects_compat_false req data params spec isRoot :
  compatible (type data) (type req) = false ->
  build req data params spec isRoot =
  throw (if isRoot && negb (bool_decide (kind (type data) = ROW))
         then EnsureFailed "The root object can only be a row."
         else IncompatibleTypes (type data) (type req)).
Proof.
  intros Hc. unfold build, DWIO_ENSURE, checkTypeCompatibility. rewrite Hc.
  destruct isRoot; cbn [negb orb andb];
    [destruct (bool_decide (kind (type data) = ROW))|]; reflexivity.
Qed.

(** Scenario A of section 8, leaf by leaf: a dictionary-encoded VARCHAR
    and a direct-encoded BIGINT. *)
Example build_dictionary_varchar :
  build (scalarColumn VARCHAR 1) (scalarColumn VARCHAR 1)
        (stripeOf ColumnEncoding_Kind_DICTIONARY) (columnSpec "c0") false =
  ([{| node := 1; sequence_ := 0 |}],
   inr (SelectiveStringDictionaryColumnReader
          (scalarColumn VARCHAR 1) (stripeOf ColumnEncoding_Kind_DICTIONARY)
          (columnSpec "c0"))).
Proof. reflexivity. Qed.

Example build_direct_bigint :
  build (scalarColumn BIGINT 2) (scalarColumn BIGINT 2)
        (stripeOf ColumnEncoding_Kind_DIRECT) (columnSpec "c1") false =
  ([{| node := 2; sequence_ := 0 |}],
   inr (SelectiveIntegerDirectColumnReader
          (scalarColumn BIGINT 2) (scalarColumn BIGINT 2)
          (stripeOf ColumnEncoding_Kind_DIRECT) 8 (columnSpec "c1"))).
Proof. reflexivity. Qed.

(** C1: [build] checks the requested type against the data type before it
    looks at the kind of the column.  A pair that fails the check, in
    particular every pair whose shapes differ, makes [build] throw for
    every logical kind: it reads no encoding and constructs no reader.  The
    exception is the one of the compatibility check, unless the root check
    that precedes it has already failed. *)
Theorem build_rejects_incompatible_types req data params spec isRoot :
  shapeOf (type data) <> shapeOf (type req) \/
  compatible (type data) (type req) = false ->
  build req data params spec isRoot =
  throw (if isRoot && negb (bool_decide (kind (type data) = ROW))
         then EnsureFailed "The root object can only be a row."
         else IncompatibleTypes (type data) (type req)).
Proof.
  intros H.
  assert (Hc : compatible (type data) (type req) = false).
  { destruct H as [H|H]; [|exact H].
    destruct (compatible (type data) (type req)) eqn:E; [|reflexivity].
    exfalso. apply H, compatible_shape, E. }
  apply build_rejects_compat_false, Hc.
Qed.

(** Requesting an ARRAY over a ROW-typed column fails construction. *)
Lemma build_rejects_incompatible_types_witness :
  build (compositeColumn ARRAY [INTEGER] 1) (compositeColumn ROW [INTEGER] 1)
        (stripeOf ColumnEncoding_Kind_DIRECT) (columnSpec "c0") false =
  throw (IncompatibleTypes (type (compositeColumn ROW [INTEGER] 1))
                           (type (compositeColumn ARRAY [INTEGER] 1))).
Proof.
  apply (build_rejects_incompatible_types
           (compositeColumn ARRAY [INTEGER] 1)
           (compositeColumn ROW [INTEGER] 1)
           (stripeOf ColumnEncoding_Kind_DIRECT) (columnSpec "c0") false).
  left. discriminate.
Defined.

(** C2: for a non-root column of kind INTEGER, SMALLINT or non-decimal
    BIGINT that passed the compatibility check, [build] reads the encoding
    of the column's stream identity and constructs the dictionary integer
    reader for DICTIONARY and DICTIONARY_V2, the direct integer reader for
    DIRECT and DIRECT_V2, each with the byte width of the kind, and raises
    "buildReader unhandled integer encoding" for every other encoding. *)
Theorem build_integer_dispatch req data params spec :
  kind (type data) = INTEGER \/ kind (type data) = SMALLINT \/
  (kind (type data) = BIGINT /\ isDecimal (type data) = false) ->
  compatible (type data) (type req) = true ->
  let numBytes := match kind (type data) with
                  | INTEGER => INT_BYTE_SIZE
                  | SMALLINT => SHORT_BYTE_SIZE
                  | _ => LONG_BYTE_SIZE
                  end in
  let encoding := encodingOf data params in
  (encoding = ColumnEncoding_Kind_DICTIONARY \/
   encoding = ColumnEncoding_Kind_DICTIONARY_V2 ->
   build req data params spec false =
   ([encodingKeyOf data params],
    inr (SelectiveIntegerDictionaryColumnReader
           req data params spec numBytes))) /\
  (encoding = ColumnEncoding_Kind_DIRECT \/
   encoding = ColumnEncoding_Kind_DIRECT_V2 ->
   build req data params spec false =
   ([encodingKeyOf data params],
    inr (SelectiveIntegerDirectColumnReader
           req data params numBytes spec))) /\
  (encoding <> ColumnEncoding_Kind_DICTIONARY ->
   encoding <> ColumnEncoding_Kind_DICTIONARY_V2 ->
   encoding <> ColumnEncoding_Kind_DIRECT ->
   encoding <> ColumnEncoding_Kind_DIRECT_V2 ->
   build req data params spec false =
   ([encodingKeyOf data params],
    inl (Raised "buildReader unhandled integer encoding"))).
Proof.
  intros Hk Hc numBytes encoding. subst numBytes encoding.
  enter_build Hc. run_dispatch.
  destruct Hk as [-> | [-> | [-> ->]]];
    (split; [|split]);
    try (intros [-> | ->]; reflexivity);
    intros H1 H2 H3 H4;
    destruct (proto.kind _); first [reflexivity | congruence].
Qed.

Lemma build_integer_dispatch_witness :
  build (scalarColumn INTEGER 1) (scalarColumn INTEGER 1)
        (stripeOf ColumnEncoding_Kind_DICTIONARY_V2) (columnSpec "c0") false =
  ([{| node := 1; sequence_ := 0 |}],
   inr (SelectiveIntegerDictionaryColumnReader
          (scalarColumn INTEGER 1) (scalarColumn INTEGER 1)
          (stripeOf ColumnEncoding_Kind_DICTIONARY_V2) (columnSpec "c0") 4)).
Proof.
  apply (build_integer_dispatch
           (scalarColumn INTEGER 1) (scalarColumn INTEGER 1)
           (stripeOf ColumnEncoding_Kind_DICTIONARY_V2) (columnSpec "c0")).
  - left. reflexivity.
  - reflexivity.
  - right. reflexivity.
Defined.

(** C3: for a non-root VARCHAR or VARBINARY column that passed the
    compatibility check, [build] reads the encoding of the column's stream
    identity and constructs the direct string reader for DIRECT and
    DIRECT_V2, the dictionary string reader for DICTIONARY and
    DICTIONARY_V2, and raises "buildReader string unknown encoding" for
    every other encoding. *)
Theorem build_string_dispatch req data params spec :
  kind (type data) = VARCHAR \/ kind (type data) = VARBINARY ->
  compatible (type data) (type req) = true ->
  let encoding := encodingOf data params in
  (encoding = ColumnEncoding_Kind_DIRECT \/
   encoding = ColumnEncoding_Kind_DIRECT_V2 ->
   build req data params spec false =
   ([encodingKeyOf data params],
    inr (SelectiveStringDirectColumnReader data params spec))) /\
  (encoding = ColumnEncoding_Kind_DICTIONARY \/
   encoding = ColumnEncoding_Kind_DICTIONARY_V2 ->
   build req data params spec false =
   ([encodingKeyOf data params],
    inr (SelectiveStringDictionaryColumnReader data params spec))) /\
  (encoding <> ColumnEncoding_Kind_DIRECT ->
   encoding <> ColumnEncoding_Kind_DIRECT_V2 ->
   encoding <> ColumnEncoding_Kind_DICTIONARY ->
   encoding <> ColumnEncoding_Kind_DICTIONARY_V2 ->
   build req data params spec false =
   ([encodingKeyOf data params],
    inl (Raised "buildReader string unknown encoding"))).
Proof.
  intros Hk Hc encoding. subst encoding.
  enter_build Hc. run_dispatch.
  destruct Hk as [-> | ->];
    (split; [|split]);
    try (intros [-> | ->]; reflexivity);
    intros H1 H2 H3 H4;
    destruct (proto.kind _); first [reflexivity | congruence].
Qed.

Lemma build_string_dispatch_witness :
  build (scalarColumn VARBINARY 3) (scalarColumn VARBINARY 3)
        (stripeOf ColumnEncoding_Kind_MAP_FLAT) (columnSpec "c0") false =
  ([{| node := 3; sequence_ := 0 |}],
   inl (Raised "buildReader string unknown encoding")).
Proof.
  apply (build_string_dispatch
           (scalarColumn VARBINARY 3) (scalarColumn VARBINARY 3)
           (stripeOf ColumnEncoding_Kind_MAP_FLAT) (columnSpec "c0"));
    first [right; reflexivity | reflexivity | discriminate].
Defined.

(** C4: a kind outside the dispatch table, and HUGEINT when the data type
    is not a decimal, never yields a reader: [build] throws whatever the
    other arguments are.  For a non-root column that passed the
    compatibility check the exception is "buildReader unhandled type: "
    followed by the name of the kind, and no other kind has that name. *)
Theorem build_unhandled_type req data params spec :
  kind (type data) ∉ dispatchTable \/
  (kind (type data) = HUGEINT /\ isDecimal (type data) = false) ->
  (forall isRoot, exists e, build req data params spec isRoot = throw e) /\
  (compatible (type data) (type req) = true ->
   build req data params spec false =
   throw (Raised ("buildReader unhandled type: " +:+
                  mapTypeKindToName (kind (type data))))) /\
  (forall k,
     mapTypeKindToName k = mapTypeKindToName (kind (type data)) ->
     k = kind (type data)).
Proof.
  intros Hk.
  assert (Hdispatch : forall isRoot,
    compatible (type data) (type req) = true ->
    negb isRoot || bool_decide (kind (type data) = ROW) = true ->
    build req data params spec isRoot =
    throw (Raised ("buildReader unhandled type: " +:+
                   mapTypeKindToName (kind (type data))))).
  { intros isRoot Hc Hroot. unfold build. rewrite Hroot. enter_build Hc.
    run_dispatch.
    destruct Hk as [Hk | [Hk Hd]].
    - unfold dispatchTable in Hk.
      destruct (kind (type data)); try reflexivity;
        exfalso; apply Hk; repeat constructor.
    - rewrite Hk, Hd. reflexivity. }
  split; [|split].
  - intros isRoot.
    destruct (compatible (type data) (type req)) eqn:Hc.
    + destruct (negb isRoot || bool_decide (kind (type data) = ROW)) eqn:Hroot.
      * eexists. apply Hdispatch; done.
      * eexists. unfold build. rewrite Hroot. reflexivity.
    + eexists. apply build_rejects_compat_false. exact Hc.
  - intros Hc. apply Hdispatch; done.
  - intros k. apply mapTypeKindToName_inj.
Qed.

Lemma build_unhandled_type_witness :
  build (scalarColumn HUGEINT 4) (scalarColumn HUGEINT 4)
        (stripeOf ColumnEncoding_Kind_DIRECT) (columnSpec "c0") false =
  throw (Raised "buildReader unhandled type: HUGEINT").
Proof.
  apply (build_unhandled_type
           (scalarColumn HUGEINT 4) (scalarColumn HUGEINT 4)
           (stripeOf ColumnEncoding_Kind_DIRECT) (columnSpec "c0")).
  - right. split; reflexivity.
  - reflexivity.
Defined.

(** C5: for a non-root column that passed the compatibility check, a
    decimal BIGINT gets the 64-bit decimal reader and a decimal HUGEINT the
    128-bit decimal reader, both without any read of the stripe's
    encodings; a non-decimal BIGINT goes through the integer encoding
    dispatch with a width of 8 bytes. *)
Theorem build_decimal_dispatch req data params spec :
  compatible (type data) (type req) = true ->
  (kind (type data) = BIGINT -> isDecimal (type data) = true ->
   build req data params spec false =
   ret (SelectiveDecimalColumnReader int64_t req params spec)) /\
  (kind (type data) = BIGINT -> isDecimal (type data) = false ->
   build req data params spec false =
   buildIntegerReader req data params 8 spec) /\
  (kind (type data) = HUGEINT -> isDecimal (type data) = true ->
   build req data params spec false =
   ret (SelectiveDecimalColumnReader int128_t req params spec)).
Proof.
  intros Hc. enter_build Hc.
  repeat split; intros -> ->; try reflexivity.
  unfold LONG_BYTE_SIZE.
  by destruct (buildIntegerReader req data params 8 spec).
Qed.

Lemma build_decimal_dispatch_witness :
  build (decimalColumn BIGINT 10 2 5) (decimalColumn BIGINT 10 2 5)
        (stripeOf ColumnEncoding_Kind_MAP_FLAT) (columnSpec "c0") false =
  ([], inr (SelectiveDecimalColumnReader int64_t
              (decimalColumn BIGINT 10 2 5)
              (stripeOf ColumnEncoding_Kind_MAP_FLAT) (columnSpec "c0"))).
Proof.
  apply (build_decimal_dispatch
           (decimalColumn BIGINT 10 2 5) (decimalColumn BIGINT 10 2 5)
           (stripeOf ColumnEncoding_Kind_MAP_FLAT) (columnSpec "c0"));
    reflexivity.
Defined.

(** C6: for a non-root column that passed the compatibility check, a REAL
    column gets the floating-point reader with float output when the
    requested kind is REAL and with double output for any other requested
    kind; a DOUBLE column always gets double output. *)
Theorem build_floating_point_dispatch req data params spec :
  compatible (type data) (type req) = true ->
  (kind (type data) = REAL -> kind (type req) = REAL ->
   build req data params spec false =
   ret (SelectiveFloatingPointColumnReader float float
          (type req) data params spec)) /\
  (kind (type data) = REAL -> kind (type req) <> REAL ->
   build req data params spec false =
   ret (SelectiveFloatingPointColumnReader float double
          (type req) data params spec)) /\
  (kind (type data) = DOUBLE ->
   build req data params spec false =
   ret (SelectiveFloatingPointColumnReader double double
          (type req) data params spec)).
Proof.
  intros Hc. enter_build Hc.
  split; [|split].
  - intros -> Hr. rewrite bool_decide_eq_true_2 by exact Hr. reflexivity.
  - intros -> Hr. rewrite bool_decide_eq_false_2 by exact Hr. reflexivity.
  - intros ->. reflexivity.
Qed.

(** Scenario B of section 8: a REAL column requested as DOUBLE. *)
Lemma build_floating_point_dispatch_witness :
  build (scalarColumn DOUBLE 6) (scalarColumn REAL 6)
        (stripeOf ColumnEncoding_Kind_DIRECT) (columnSpec "c0") false =
  ret (SelectiveFloatingPointColumnReader float double
         (type (scalarColumn DOUBLE 6)) (scalarColumn REAL 6)
         (stripeOf ColumnEncoding_Kind_DIRECT) (columnSpec "c0")).
Proof.
  apply (build_floating_point_dispatch
           (scalarColumn DOUBLE 6) (scalarColumn REAL 6)
           (stripeOf ColumnEncoding_Kind_DIRECT) (columnSpec "c0"));
    first [reflexivity | discriminate].
Defined.

(** C7: for a non-root MAP column that passed the compatibility check,
    [build] reads the encoding of the column's stream identity and
    constructs the flat-map reader exactly when it is MAP_FLAT, and the
    regular map reader for every other encoding. *)
Theorem build_map_dispatch req data params spec :
  kind (type data) = MAP ->
  compatible (type data) (type req) = true ->
  let encoding := encodingOf data params in
  (encoding = ColumnEncoding_Kind_MAP_FLAT ->
   build req data params spec false =
   ([encodingKeyOf data params],
    inr (SelectiveFlatMapColumnReader req data params spec))) /\
  (encoding <> ColumnEncoding_Kind_MAP_FLAT ->
   build req data params spec false =
   ([encodingKeyOf data params],
    inr (SelectiveMapColumnReader req data params spec))) /\
  (build req data params spec false =
   ([encodingKeyOf data params],
    inr (SelectiveFlatMapColumnReader req data params spec)) <->
   encoding = ColumnEncoding_Kind_MAP_FLAT).
Proof.
  intros Hk Hc encoding. subst encoding.
  enter_build Hc. rewrite Hk. run_dispatch.
  destruct (bool_decide_reflect
              (proto.kind
                 (encodings (stripeStreams params)
                    {| node := id data;
                       sequence_ := sequence (flatMapContext params) |}) =
               ColumnEncoding_Kind_MAP_FLAT)) as [He|He].
  - repeat split; done.
  - repeat split; done.
Qed.

Lemma build_map_dispatch_witness :
  build (compositeColumn MAP [VARCHAR; BIGINT] 7)
        (compositeColumn MAP [VARCHAR; BIGINT] 7)
        (stripeOf ColumnEncoding_Kind_DIRECT) (columnSpec "c0") false =
  ([{| node := 7; sequence_ := 0 |}],
   inr (SelectiveMapColumnReader
          (compositeColumn MAP [VARCHAR; BIGINT] 7)
          (compositeColumn MAP [VARCHAR; BIGINT] 7)
          (stripeOf ColumnEncoding_Kind_DIRECT) (columnSpec "c0"))).
Proof.
  apply (build_map_dispatch
           (compositeColumn MAP [VARCHAR; BIGINT] 7)
           (compositeColumn MAP [VARCHAR; BIGINT] 7)
           (stripeOf ColumnEncoding_Kind_DIRECT) (columnSpec "c0"));
    first [reflexivity | discriminate].
Defined.

(** C8: called for the root with a data type that is not a ROW, [build]
    fails at once with "The root object can only be a row."; called for
    the root with a ROW that passed the compatibility check, it constructs
    the struct reader, which is told that it is the root. *)
Theorem build_root_must_be_row req data params spec :
  (kind (type data) <> ROW ->
   build req data params spec true =
   throw (EnsureFailed "The root object can only be a row.")) /\
  (kind (type data) = ROW ->
   compatible (type data) (type req) = true ->
   build req data params spec true =
   ret (SelectiveStructColumnReader req data params spec true)).
Proof.
  split.
  - intros Hk. unfold build, DWIO_ENSURE.
    rewrite bool_decide_eq_false_2 by exact Hk. reflexivity.
  - intros Hk Hc. unfold build. rewrite Hk. enter_build Hc. reflexivity.
Qed.

Lemma build_root_must_be_row_witness :
  build (scalarColumn INTEGER 0) (scalarColumn INTEGER 0)
        (stripeOf ColumnEncoding_Kind_DIRECT) (columnSpec "root") true =
  throw (EnsureFailed "The root object can only be a row.") /\
  build (compositeColumn ROW [VARCHAR; BIGINT] 0)
        (compositeColumn ROW [VARCHAR; BIGINT] 0)
        (stripeOf ColumnEncoding_Kind_DIRECT) (columnSpec "root") true =
  ret (SelectiveStructColumnReader
         (compositeColumn ROW [VARCHAR; BIGINT] 0)
         (compositeColumn ROW [VARCHAR; BIGINT] 0)
         (stripeOf ColumnEncoding_Kind_DIRECT) (columnSpec "root") true).
Proof.
  split.
  - apply (build_root_must_be_row
             (scalarColumn INTEGER 0) (scalarColumn INTEGER 0)
             (stripeOf ColumnEncoding_Kind_DIRECT) (columnSpec "root")).
    discriminate.
  - apply (build_root_must_be_row
             (compositeColumn ROW [VARCHAR; BIGINT] 0)
             (compositeColumn ROW [VARCHAR; BIGINT] 0)
             (stripeOf ColumnEncoding_Kind_DIRECT) (columnSpec "root"));
      reflexivity.
Defined.

(** C10: for a VARCHAR, VARBINARY or TIMESTAMP column, two requested types
    that both pass the compatibility check give the same result of
    [build]: the same reads, and the same reader or the same exception. *)
Theorem build_string_timestamp_ignore_requested
    req1 req2 data params spec isRoot :
  kind (type data) = VARCHAR \/ kind (type data) = VARBINARY \/
  kind (type data) = TIMESTAMP ->
  compatible (type data) (type req1) = true ->
  compatible (type data) (type req2) = true ->
  build req1 data params spec isRoot = build req2 data params spec isRoot.
Proof.
  intros Hk Hc1 Hc2.
  unfold build, checkTypeCompatibility. rewrite Hc1, Hc2.
  destruct Hk as [-> | [-> | ->]]; reflexivity.
Qed.

Lemma build_string_timestamp_ignore_requested_witness :
  build (scalarColumn TIMESTAMP 8) (scalarColumn TIMESTAMP 9)
        (stripeOf ColumnEncoding_Kind_DIRECT) (columnSpec "c0") false =
  build (scalarColumn TIMESTAMP 11) (scalarColumn TIMESTAMP 9)
        (stripeOf ColumnEncoding_Kind_DIRECT) (columnSpec "c0") false.
Proof.
  apply (build_string_timestamp_ignore_requested
           (scalarColumn TIMESTAMP 8) (scalarColumn TIMESTAMP 11)
           (scalarColumn TIMESTAMP 9)
           (stripeOf ColumnEncoding_Kind_DIRECT) (columnSpec "c0") false);
    first [right; right; reflexivity | reflexivity].
Defined.

(* ===================================================================== *)
(** * Properties of the remaining-filter extraction *)
(* ===================================================================== *)

Ltac bool_to_Z :=
  rewrite ?andb_true_iff, ?negb_true_iff, ?negb_false_iff, ?Z.eqb_eq,
    ?Z.eqb_neq, ?Z.ltb_lt, ?Z.ltb_ge, ?Z.leb_le, ?Z.leb_gt in *.

(** Merging two filters is their conjunction. *)
Lemma testFilter_mergeWith f g v :
  testFilter (mergeWith f g) v = testFilter f v && testFilter g v.
Proof.
  destruct f as [| | |l1 u1 n1], g as [| | |l2 u2 n2], v as [x|]; simpl;
    rewrite ?andb_false_r; try reflexivity;
    try (destruct n1; reflexivity); try (destruct n2; reflexivity);
    try (destruct n1, n2; reflexivity).
  - rewrite andb_true_r. reflexivity.
  - destruct l1 as [a|], l2 as [b|], u1 as [c|], u2 as [d|]; simpl;
      rewrite ?andb_true_r;
      apply eq_true_iff_eq; rewrite ?andb_true_iff, ?Z.leb_le; lia.
Qed.

(** Merging a filter into the map adds exactly that filter to the
    conjunction. *)
Lemma testFilters_mergeInto field f filters row :
  testFilters (mergeInto field f filters) row =
  testFilters filters row && testFilter f (row field).
Proof.
  unfold testFilters, mergeInto.
  apply eq_true_iff_eq. rewrite andb_true_iff, !bool_decide_eq_true.
  destruct (filters !! field) as [old|] eqn:Hold.
  - split.
    + intros H. pose proof (H field _ (lookup_insert_eq _ _ _)) as Hm.
      simpl in Hm. rewrite testFilter_mergeWith in Hm.
      apply andb_true_iff in Hm as [Hf Ho]. split; [|done].
      intros c g Hg. destruct (decide (c = field)) as [->|Hne].
      * rewrite Hold in Hg. by simplify_eq.
      * apply (H c g). by rewrite lookup_insert_ne.
    + intros [H Hf] c g Hg. destruct (decide (c = field)) as [->|Hne].
      * rewrite lookup_insert_eq in Hg. simplify_eq.
        rewrite testFilter_mergeWith, Hf. simpl. by apply (H field).
      * rewrite lookup_insert_ne in Hg by done. by apply (H c).
  - rewrite map_Forall_insert by done. tauto.
Qed.

Lemma testFilters_empty row : testFilters ∅ row = true.
Proof. unfold testFilters. apply bool_decide_eq_true_2, map_Forall_empty. Qed.

(** The filter made from a leaf accepts the rows the leaf lets through. *)
Lemma leafCallToSubfieldFilter_sound evaluator expr negated field f row :
  leafCallToSubfieldFilter expr negated = Some (field, f) ->
  holds evaluator negated (Some expr) row = testFilter f (row field).
Proof.
  unfold holds.
  destruct expr as [op c v|c lo hi|c| | | | |]; simpl; try discriminate.
  - destruct op, negated; intros [= <- <-]; destruct (row c) as [x|]; simpl;
      try reflexivity;
      rewrite ?andb_true_r; apply eq_true_iff_eq; rewrite bool_decide_eq_true;
      (split; [intros [= H] | intros H; f_equal]); bool_to_Z; lia.
  - destruct negated; [discriminate|]. intros [= <- <-].
    destruct (row c) as [x|]; simpl; [|reflexivity].
    apply eq_true_iff_eq. rewrite bool_decide_eq_true.
    split; [by intros [= ->]|by intros ->].
  - intros [= <- <-]. by destruct negated, (row c).
Qed.

Lemma holds_not evaluator negated input row :
  holds evaluator negated (Some (ExprNot input)) row =
  holds evaluator (negb negated) (Some input) row.
Proof.
  unfold holds. simpl.
  destruct (evaluateRow evaluator input row) as [[]|], negated; reflexivity.
Qed.

Lemma holds_and evaluator lhs rhs row :
  holds evaluator false (Some (ExprAnd lhs rhs)) row =
  holds evaluator false (Some lhs) row && holds evaluator false (Some rhs) row.
Proof.
  unfold holds. simpl.
  by destruct (evaluateRow evaluator lhs row) as [[]|],
    (evaluateRow evaluator rhs row) as [[]|].
Qed.

Lemma holds_or evaluator lhs rhs row :
  holds evaluator true (Some (ExprOr lhs rhs)) row =
  holds evaluator true (Some lhs) row && holds evaluator true (Some rhs) row.
Proof.
  unfold holds. simpl.
  by destruct (evaluateRow evaluator lhs row) as [[]|],
    (evaluateRow evaluator rhs row) as [[]|].
Qed.

(** The step shared by the two connectives that extraction descends
    into. *)
Ltac split_connective IHl IHr lemma :=
  let l := fresh "l" in
  let r := fresh "r" in
  let filters1 := fresh "filters1" in
  let filters2 := fresh "filters2" in
  match goal with
  | |- context [extractFiltersFromRemainingFilter ?lhs ?ev ?n ?filters] =>
      specialize (IHl n filters);
      destruct (extractFiltersFromRemainingFilter lhs ev n filters)
        as [l filters1]; cbn [fst snd] in IHl;
      specialize (IHr n filters1);
      match goal with
      | |- context [extractFiltersFromRemainingFilter ?rhs ev n filters1] =>
          destruct (extractFiltersFromRemainingFilter rhs ev n filters1)
            as [r filters2]; cbn [fst snd] in IHr
      end;
      rewrite lemma, andb_assoc, <- IHl;
      rewrite <- (andb_assoc (testFilters filters1 _)),
        (andb_comm (holds _ _ l _)), andb_assoc, <- IHr;
      destruct l, r; cbn [fst snd];
      rewrite ?lemma; cbn [holds]; rewrite ?andb_true_r;
      rewrite <- ?andb_assoc; f_equal; apply andb_comm
  end.

(** Extraction in any context, from any filters: on every row, the filters
    after extraction together with what is returned accept the row exactly
    when the filters before extraction and the expression do. *)
Lemma extract_preserves evaluator row expr : forall negated filters,
  testFilters
    (extractFiltersFromRemainingFilter expr evaluator negated filters).2 row &&
  holds evaluator negated
    (extractFiltersFromRemainingFilter expr evaluator negated filters).1 row =
  testFilters filters row && holds evaluator negated (Some expr) row.
Proof.
  induction expr as [op c v|c lo hi|c|op a b|name fields
                    |input IH|lhs IHl rhs IHr|lhs IHl rhs IHr];
    intros negated filters.
  1-3: cbn [extractFiltersFromRemainingFilter];
    match goal with |- context [leafCallToSubfieldFilter ?e ?n] =>
      destruct (leafCallToSubfieldFilter e n) as [[field f]|] eqn:Hleaf end;
    [ cbn [fst snd]; rewrite testFilters_mergeInto;
      rewrite (leafCallToSubfieldFilter_sound _ _ _ _ _ _ Hleaf);
      cbn [holds]; by rewrite andb_true_r
    | reflexivity ].
  1-2: reflexivity.
  - cbn [extractFiltersFromRemainingFilter leafCallToSubfieldFilter].
    specialize (IH (negb negated) filters).
    destruct (extractFiltersFromRemainingFilter
                input evaluator (negb negated) filters)
      as [[inner|] filters']; cbn [fst snd fmap option_fmap option_map] in *;
      rewrite !holds_not; exact IH.
  - cbn [extractFiltersFromRemainingFilter leafCallToSubfieldFilter].
    destruct negated; [reflexivity|].
    split_connective IHl IHr holds_and.
  - cbn [extractFiltersFromRemainingFilter leafCallToSubfieldFilter].
    destruct negated; [|reflexivity].
    split_connective IHl IHr holds_or.
Qed.

(** The pushable conjunct [c0 >= 50] leaves the expression and becomes a
    range on [c0]; the comparison of two columns stays. *)
Example extract_pushes_range :
  extractFiltersFromRemainingFilter
    (ExprAnd (FieldCompare cmp_gte "c0" 50) (ColumnsCompare cmp_lt "c0" "c1"))
    noFunctions false ∅ =
  (Some (ColumnsCompare cmp_lt "c0" "c1"),
   {[ "c0" := BigintRange (Some 50%Z) None false ]}).
Proof. reflexivity. Qed.

(** Under a NOT the comparison is flipped, and the disjunction splits. *)
Example extract_under_not :
  extractFiltersFromRemainingFilter
    (ExprNot (ExprOr (FieldCompare cmp_lt "c0" 50) (FieldIsNull "c1")))
    noFunctions false ∅ =
  (None,
   {[ "c0" := BigintRange (Some 50%Z) None false; "c1" := IsNotNull ]}).
Proof. vm_compute. reflexivity. Qed.

(** C9: for every residual expression and every batch, the selection the
    expression makes equals, row by row, the conjunction of the selection
    of the returned expression and the selection of the filters that the
    extraction put into an empty filter map. *)
Theorem extractFiltersFromRemainingFilter_preserves_semantics
    evaluator expr batch :
  let '(simplified, filters) :=
    extractFiltersFromRemainingFilter expr evaluator false ∅ in
  evaluate evaluator (Some expr) batch =
  zip_with andb (evaluate evaluator simplified batch)
                (evaluateFilters filters batch).
Proof.
  destruct (extractFiltersFromRemainingFilter expr evaluator false ∅)
    as [simplified filters] eqn:E.
  unfold evaluateFilters.
  assert (Hrow : forall row, passes evaluator expr row =
     holds evaluator false simplified row && testFilters filters row).
  { intros row. pose proof (extract_preserves evaluator row expr false ∅) as H.
    rewrite E, testFilters_empty in H. cbn [fst snd] in H.
    rewrite andb_comm. rewrite H. reflexivity. }
  destruct simplified as [e|]; cbn [evaluate];
    induction batch as [|row batch IHb]; cbn [List.map zip_with];
    try reflexivity; rewrite IHb, Hrow; reflexivity.
Qed.

(* ===================================================================== *)
(** * Further properties of [build] and [buildIntegerReader] *)
(* ===================================================================== *)

(** Splits a call of [build] into all the paths the source can take. *)
Ltac build_paths req data params isRoot :=
  unfold build, buildIntegerReader, DWIO_ENSURE, checkTypeCompatibility,
    getEncoding, DWIO_RAISE, encodingOf, encodingKeyOf;
  destruct (compatible (type data) (type req)) eqn:?Hcompat;
  destruct data as [[dataKind [dataDecimal|] dataChildren] dataId];
  destruct isRoot, dataKind;
  cbn [type id kind isDecimal negb orb andb bind ret throw app fst snd];
  rewrite ?bool_decide_eq_true_2 by reflexivity;
  rewrite ?bool_decide_eq_false_2 by discriminate;
  cbn [type id kind isDecimal negb orb andb bind ret throw app fst snd];
  try case_bool_decide;
  try destruct (proto.kind
                  (encodings (stripeStreams params)
                     {| node := dataId;
                        sequence_ := sequence (flatMapContext params) |}))
    eqn:?Hencoding;
  cbn [type id kind isDecimal negb orb andb bind ret throw app fst snd
       bool_decide decide_rel].






(** X5: the reader [build] returns was constructed with the very [params]
    and [scanSpec] that [build] was given, and with the given data type
    unless it is a decimal reader, which is only built for a decimal data
    type. *)
Theorem build_forwards_arguments req data params spec isRoot r :
  (build req data params spec isRoot).2 = inr r ->
  readerParams r = params /\
  readerScanSpec r = spec /\
  (readerDataType r = Some data \/
   (readerDataType r = None /\ isDecimal (type data) = true)).
Proof.
  build_paths req data params isRoot; intros [= <-];
    (split; [reflexivity | split; [reflexivity |]]);
    first [left; reflexivity | right; split; reflexivity].
Qed.

Lemma build_forwards_arguments_witness :
  readerParams
    (SelectiveTimestampColumnReader
       (scalarColumn TIMESTAMP 9) (stripeOf ColumnEncoding_Kind_DIRECT)
       (columnSpec "c0")) = stripeOf ColumnEncoding_Kind_DIRECT.
Proof.
  apply (build_forwards_arguments
           (scalarColumn TIMESTAMP 9) (scalarColumn TIMESTAMP 9)
           (stripeOf ColumnEncoding_Kind_DIRECT) (columnSpec "c0") false).
  reflexivity.
Defined.



(** X7: the class of the reader [build] returns determines the kind of the
    data type: integer readers serve INTEGER, SMALLINT and non-decimal
    BIGINT with 4, 2 and 8 bytes, the 64-bit and 128-bit decimal readers
    serve decimal BIGINT and decimal HUGEINT, the byte-RLE reader serves
    BOOLEAN with the boolean flag set and TINYINT with it cleared, and the
    struct reader serves ROW and carries the [isRoot] of the call. *)
Theorem build_reader_determines_kind req data params spec isRoot r :
  (build req data params spec isRoot).2 = inr r ->
  match r with
  | SelectiveIntegerDictionaryColumnReader _ _ _ _ numBytes
  | SelectiveIntegerDirectColumnReader _ _ _ numBytes _ =>
      (kind (type data) = INTEGER /\ numBytes = 4%N) \/
      (kind (type data) = SMALLINT /\ numBytes = 2%N) \/
      (kind (type data) = BIGINT /\ isDecimal (type data) = false /\
       numBytes = 8%N)
  | SelectiveDecimalColumnReader int64_t _ _ _ =>
      kind (type data) = BIGINT /\ isDecimal (type data) = true
  | SelectiveDecimalColumnReader int128_t _ _ _ =>
      kind (type data) = HUGEINT /\ isDecimal (type data) = true
  | SelectiveListColumnReader _ _ _ _ => kind (type data) = ARRAY
  | SelectiveFlatMapColumnReader _ _ _ _
  | SelectiveMapColumnReader _ _ _ _ => kind (type data) = MAP
  | SelectiveFloatingPointColumnReader float _ _ _ _ _ =>
      kind (type data) = REAL
  | SelectiveFloatingPointColumnReader double _ _ _ _ _ =>
      kind (type data) = DOUBLE
  | SelectiveStructColumnReader _ _ _ _ root =>
      kind (type data) = ROW /\ root = isRoot
  | SelectiveByteRleColumnReader _ _ _ _ isBool =>
      (kind (type data) = BOOLEAN /\ isBool = true) \/
      (kind (type data) = TINYINT /\ isBool = false)
  | SelectiveStringDirectColumnReader _ _ _
  | SelectiveStringDictionaryColumnReader _ _ _ =>
      kind (type data) = VARCHAR \/ kind (type data) = VARBINARY
  | SelectiveTimestampColumnReader _ _ _ => kind (type data) = TIMESTAMP
  end.
Proof.
  build_paths req data params isRoot; intros [= <-];
    cbn [kind isDecimal type]; intuition congruence.
Qed.

Lemma build_reader_determines_kind_witness :
  (kind (type (scalarColumn SMALLINT 2)) = INTEGER /\ 2%N = 4%N) \/
  (kind (type (scalarColumn SMALLINT 2)) = SMALLINT /\ 2%N = 2%N) \/
  (kind (type (scalarColumn SMALLINT 2)) = BIGINT /\
   isDecimal (type (scalarColumn SMALLINT 2)) = false /\ 2%N = 8%N).
Proof.
  apply (build_reader_determines_kind
           (scalarColumn SMALLINT 2) (scalarColumn SMALLINT 2)
           (stripeOf ColumnEncoding_Kind_DIRECT) (columnSpec "c0") false
           (SelectiveIntegerDirectColumnReader
              (scalarColumn SMALLINT 2) (scalarColumn SMALLINT 2)
              (stripeOf ColumnEncoding_Kind_DIRECT) 2 (columnSpec "c0"))).
  reflexivity.
Defined.

(** X8: a floating-point reader is handed the requested type of the call,
    outputs float only for a REAL column requested as REAL, and is never
    a reader of doubles that outputs floats. *)
Theorem build_floating_point_never_narrows
    req data params spec isRoot TData TRequested requested dataType p s :
  (build req data params spec isRoot).2 =
  inr (SelectiveFloatingPointColumnReader
         TData TRequested requested dataType p s) ->
  requested = type req /\
  (TRequested = float <->
   kind (type data) = REAL /\ kind (type req) = REAL) /\
  (TData = double -> TRequested = double).
Proof.
  build_paths req data params isRoot; intros [= <- <- <- <- <- <-];
    cbn [kind type]; intuition congruence.
Qed.

Lemma build_floating_point_never_narrows_witness :
  type (scalarColumn DOUBLE 6) = type (scalarColumn DOUBLE 6) /\
  (double = float <->
   kind (type (scalarColumn REAL 6)) = REAL /\
   kind (type (scalarColumn DOUBLE 6)) = REAL) /\
  (float = double -> double = double).
Proof.
  apply (build_floating_point_never_narrows
           (scalarColumn DOUBLE 6) (scalarColumn REAL 6)
           (stripeOf ColumnEncoding_Kind_DIRECT) (columnSpec "c0") false
           float double (type (scalarColumn DOUBLE 6)) (scalarColumn REAL 6)
           (stripeOf ColumnEncoding_Kind_DIRECT) (columnSpec "c0")).
  reflexivity.
Defined.

(** X9: the reader class agrees with the encoding in the stripe: a
    dictionary reader is only returned over DICTIONARY or DICTIONARY_V2, a
    direct reader only over DIRECT or DIRECT_V2, the flat-map reader only
    over MAP_FLAT and the regular map reader never over MAP_FLAT. *)
Theorem build_reader_matches_encoding req data params spec isRoot r :
  (build req data params spec isRoot).2 = inr r ->
  match r with
  | SelectiveIntegerDictionaryColumnReader _ _ _ _ _
  | SelectiveStringDictionaryColumnReader _ _ _ =>
      encodingOf data params = ColumnEncoding_Kind_DICTIONARY \/
      encodingOf data params = ColumnEncoding_Kind_DICTIONARY_V2
  | SelectiveIntegerDirectColumnReader _ _ _ _ _
  | SelectiveStringDirectColumnReader _ _ _ =>
      encodingOf data params = ColumnEncoding_Kind_DIRECT \/
      encodingOf data params = ColumnEncoding_Kind_DIRECT_V2
  | SelectiveFlatMapColumnReader _ _ _ _ =>
      encodingOf data params = ColumnEncoding_Kind_MAP_FLAT
  | SelectiveMapColumnReader _ _ _ _ =>
      encodingOf data params <> ColumnEncoding_Kind_MAP_FLAT
  | _ => True
  end.
Proof.
  build_paths req data params isRoot; intros [= <-];
    intuition congruence.
Qed.

Lemma build_reader_matches_encoding_witness :
  encodingOf (scalarColumn VARCHAR 1)
             (stripeOf ColumnEncoding_Kind_DICTIONARY) =
  ColumnEncoding_Kind_DICTIONARY \/
  encodingOf (scalarColumn VARCHAR 1)
             (stripeOf ColumnEncoding_Kind_DICTIONARY) =
  ColumnEncoding_Kind_DICTIONARY_V2.
Proof.
  apply (build_reader_matches_encoding
           (scalarColumn VARCHAR 1) (scalarColumn VARCHAR 1)
           (stripeOf ColumnEncoding_Kind_DICTIONARY) (columnSpec "c0") false
           (SelectiveStringDictionaryColumnReader
              (scalarColumn VARCHAR 1)
              (stripeOf ColumnEncoding_Kind_DICTIONARY) (columnSpec "c0"))).
  reflexivity.
Defined.

(** X10: the kinds that are built without a look at the encoding.  For a
    non-root column that passed the compatibility check, BOOLEAN and
    TINYINT get the byte-RLE reader with the boolean flag set and cleared,
    ARRAY the list reader, TIMESTAMP the timestamp reader and a nested ROW
    the struct reader not marked as root; none of them reads the stripe. *)
Theorem build_without_encoding_dispatch req data params spec :
  compatible (type data) (type req) = true ->
  (kind (type data) = BOOLEAN ->
   build req data params spec false =
   ret (SelectiveByteRleColumnReader req data params spec true)) /\
  (kind (type data) = TINYINT ->
   build req data params spec false =
   ret (SelectiveByteRleColumnReader req data params spec false)) /\
  (kind (type data) = ARRAY ->
   build req data params spec false =
   ret (SelectiveListColumnReader req data params spec)) /\
  (kind (type data) = TIMESTAMP ->
   build req data params spec false =
   ret (SelectiveTimestampColumnReader data params spec)) /\
  (kind (type data) = ROW ->
   build req data params spec false =
   ret (SelectiveStructColumnReader req data params spec false)).
Proof.
  intros Hc. enter_build Hc.
  repeat split; intros ->; reflexivity.
Qed.

Lemma build_without_encoding_dispatch_witness :
  build (scalarColumn BOOLEAN 3) (scalarColumn BOOLEAN 3)
        (stripeOf ColumnEncoding_Kind_MAP_FLAT) (columnSpec "c0") false =
  ret (SelectiveByteRleColumnReader
         (scalarColumn BOOLEAN 3) (scalarColumn BOOLEAN 3)
         (stripeOf ColumnEncoding_Kind_MAP_FLAT) (columnSpec "c0") true).
Proof.
  apply (build_without_encoding_dispatch
           (scalarColumn BOOLEAN 3) (scalarColumn BOOLEAN 3)
           (stripeOf ColumnEncoding_Kind_MAP_FLAT) (columnSpec "c0"));
    reflexivity.
Defined.

(** X11: [buildIntegerReader] on its own checks neither the kind nor the
    compatibility of the types: for all arguments it reads the encoding of
    the column exactly once, throws exactly when that encoding is MAP_FLAT,
    and otherwise returns an integer reader that keeps the given
    [numBytes]. *)
Theorem buildIntegerReader_total req data params numBytes spec :
  (buildIntegerReader req data params numBytes spec).1 =
  [encodingKeyOf data params] /\
  ((buildIntegerReader req data params numBytes spec).2 =
   inl (Raised "buildReader unhandled integer encoding") <->
   encodingOf data params = ColumnEncoding_Kind_MAP_FLAT) /\
  (encodingOf data params <> ColumnEncoding_Kind_MAP_FLAT ->
   (buildIntegerReader req data params numBytes spec).2 =
   inr (SelectiveIntegerDictionaryColumnReader
          req data params spec numBytes) \/
   (buildIntegerReader req data params numBytes spec).2 =
   inr (SelectiveIntegerDirectColumnReader
          req data params numBytes spec)).
Proof.
  unfold buildIntegerReader, getEncoding, DWIO_RAISE, encodingOf,
    encodingKeyOf.
  cbn [bind].
  destruct (proto.kind
              (encodings (stripeStreams params)
                 {| node := id data;
                    sequence_ := sequence (flatMapContext params) |}));
    cbn [bind ret throw app fst snd];
    (split; [reflexivity | split; [split; intros H; congruence |]]);
    intros H; first [congruence | left; reflexivity | right; reflexivity].
Qed.

(* ===================================================================== *)
(** * Properties of the inline members of [HiveDataSource] *)
(* ===================================================================== *)

Section HiveDataSourceProperties.
Context {SplitReader IoStatistics RowTypePtr RowVectorPtr MemoryPool : Type}.
Variable SplitReader_allPrefetchIssued : SplitReader -> bool.
Variable rawBytesRead : IoStatistics -> N.
Variable createEmpty : RowTypePtr -> MemoryPool -> RowVectorPtr * MemoryPool.

(** X12: [getEmptyOutput] creates the empty vector at most once: after a
    first call the vector is cached, and a second call returns the same
    vector and changes neither the data source nor the memory pool. *)
Theorem getEmptyOutput_cached_after_first_call
    (this : @HiveDataSource SplitReader IoStatistics RowTypePtr
                            RowVectorPtr) (pool_ : MemoryPool) :
  let '(v, this', pool') := getEmptyOutput createEmpty this pool_ in
  emptyOutput_ this' = Some v /\
  getEmptyOutput createEmpty this' pool' = (v, this', pool').
Proof.
  unfold getEmptyOutput.
  destruct (emptyOutput_ this) as [v|] eqn:Hcached.
  - rewrite Hcached. done.
  - destruct (createEmpty (outputType_ this) pool_) as [v pool']. done.
Qed.

(** X13: [getEmptyOutput] touches nothing but the cached vector: the
    completed rows, the completed bytes, the prefetch status and the
    output type of the data source are the same after the call. *)
Theorem getEmptyOutput_preserves_counters
    (this : @HiveDataSource SplitReader IoStatistics RowTypePtr
                            RowVectorPtr) (pool_ : MemoryPool) :
  let this' := (getEmptyOutput createEmpty this pool_).1.2 in
  getCompletedRows this' = getCompletedRows this /\
  getCompletedBytes rawBytesRead this' = getCompletedBytes rawBytesRead this /\
  allPrefetchIssued SplitReader_allPrefetchIssued this' =
  allPrefetchIssued SplitReader_allPrefetchIssued this /\
  outputType_ this' = outputType_ this.
Proof.
  unfold getEmptyOutput.
  destruct (emptyOutput_ this) as [v|]; [done|].
  destruct (createEmpty (outputType_ this) pool_) as [v pool']. done.
Qed.

(** [allPrefetchIssued] answers true only when a split reader exists
    and reports that all its prefetches are issued; without a split
    reader the answer is false. *)
Lemma allPrefetchIssued_needs_reader (this : @HiveDataSource SplitReader IoStatistics RowTypePtr
                            RowVectorPtr) :
  allPrefetchIssued SplitReader_allPrefetchIssued this = true <->
  exists reader, splitReader_ this = Some reader /\
                 SplitReader_allPrefetchIssued reader = true.
Proof.
  unfold allPrefetchIssued. destruct (splitReader_ this) as [reader|].
  - split; [by exists reader | by intros (? & [= <-] & ?)].
  - split; [done | by intros (? & ? & ?)].
Qed.
End HiveDataSourceProperties.

(* ===================================================================== *)
(** * Properties of [makeString] *)
(* ===================================================================== *)

Lemma string_app_cons a (s t : string) :
  String a s +:+ t = String a (s +:+ t).
Proof. reflexivity. Qed.

Lemma string_app_nil_l (t : string) : "" +:+ t = t.
Proof. reflexivity. Qed.

Lemma string_app_nil_r (s : string) : s +:+ "" = s.
Proof.
  induction s as [|a s IH]; [done|]. by rewrite string_app_cons, IH.
Qed.

Lemma string_app_assoc (s t u : string) : (s +:+ t) +:+ u = s +:+ (t +:+ u).
Proof.
  induction s as [|a s IH]; [done|]. by rewrite !string_app_cons, IH.
Qed.

Lemma string_app_length (s t : string) :
  String.length (s +:+ t) = (String.length s + String.length t)%nat.
Proof.
  induction s as [|a s IH]; [done|]. rewrite string_app_cons. simpl.
  by rewrite IH.
Qed.

Lemma startsWith_refl s : startsWith s s = true.
Proof.
  induction s as [|a s IH]; simpl; [done|].
  rewrite bool_decide_eq_true_2 by done. exact IH.
Qed.

(** Two strings with a common extension: one starts with the other. *)
Lemma app_eq_startsWith a : forall b s t,
  a +:+ s = b +:+ t -> startsWith a b = true \/ startsWith b a = true.
Proof.
  induction a as [|x a IH]; intros [|y b] s t H; simpl; auto.
  rewrite !string_app_cons in H. injection H as -> H.
  rewrite bool_decide_eq_true_2 by done. simpl.
  exact (IH b s t H).
Qed.

Lemma tokens_size_eq : tokens_size = 21%Z.
Proof. reflexivity. Qed.

Lemma token_index_bound n : (0 <= n mod tokens_size < 21)%Z.
Proof. rewrite tokens_size_eq. apply Z.mod_pos_bound. lia. Qed.

(** Every token has between 3 and 11 characters. *)
Lemma token_length i :
  (0 <= i < 21)%Z -> (3 <= String.length (token i) <= 11)%nat.
Proof.
  intros Hi. unfold token.
  assert (Hall : Forall (fun t => (3 <= String.length t <= 11)%nat) tokens).
  { unfold tokens. repeat constructor. }
  assert (Hlt : (Z.to_nat i < length tokens)%nat) by (simpl; lia).
  rewrite Stdlib.Lists.List.Forall_forall in Hall. apply Hall, nth_In, Hlt.
Qed.

(** No token starts with another token. *)
Lemma tokens_prefix_free i j :
  (0 <= i < 21)%Z -> (0 <= j < 21)%Z ->
  startsWith (token i) (token j) = true -> i = j.
Proof.
  intros Hi Hj. unfold token.
  assert (Hi' : (Z.to_nat i < 21)%nat) by lia.
  assert (Hj' : (Z.to_nat j < 21)%nat) by lia.
  intros H. enough (Z.to_nat i = Z.to_nat j) by lia.
  revert H. generalize dependent (Z.to_nat j). generalize dependent (Z.to_nat i).
  clear. intros a Ha b Hb.
  do 21 (destruct a as [|a]; [do 21 (destruct b as [|b]; [first [reflexivity | discriminate]|]); lia|]).
  lia.
Qed.

Lemma makeString_loop_nonpositive fuel n result :
  (n <= 0)%Z -> makeString_loop fuel n result = result.
Proof.
  intros Hn. destruct fuel as [|fuel]; simpl; [done|].
  destruct (Z.ltb_spec 0 n); [lia | done].
Qed.

Lemma makeString_loop_result fuel : forall n result,
  makeString_loop fuel n result = result +:+ makeString_loop fuel n "".
Proof.
  induction fuel as [|fuel IH]; intros n result; simpl.
  - by rewrite string_app_nil_r.
  - destruct (0 <? n)%Z; [|by rewrite string_app_nil_r].
    rewrite IH, (IH _ ("" +:+ _)), string_app_nil_l.
    by rewrite string_app_assoc.
Qed.

Lemma log2_div_tokens n :
  (0 < n / tokens_size)%Z -> (Z.log2 (n / tokens_size) < Z.log2 n)%Z.
Proof.
  rewrite tokens_size_eq. intros Hq.
  assert (Hn : (0 < n)%Z).
  { destruct (Z.ltb_spec 0 n); [done|].
    assert (n / 21 <= 0)%Z; [|lia].
    apply Z.div_le_upper_bound; lia. }
  apply Z.log2_lt_pow2; [done|].
  pose proof (Z.log2_spec n Hn) as [_ Hup].
  rewrite Z.pow_succ_r in Hup by apply Z.log2_nonneg.
  apply Z.div_lt_upper_bound; lia.
Qed.

(** Fuel above the binary length of [n] is never used up. *)
Lemma makeString_loop_fuel f1 : forall f2 n result,
  (n <= 0 \/ Z.log2 n < Z.of_nat f1)%Z ->
  (n <= 0 \/ Z.log2 n < Z.of_nat f2)%Z ->
  makeString_loop f1 n result = makeString_loop f2 n result.
Proof.
  induction f1 as [|f1 IH]; intros f2 n result H1 H2.
  - assert (n <= 0)%Z by (pose proof (Z.log2_nonneg n); lia).
    by rewrite !makeString_loop_nonpositive.
  - destruct (Z.ltb_spec 0 n) as [Hn|Hn];
      [|by rewrite !makeString_loop_nonpositive].
    destruct f2 as [|f2]; [pose proof (Z.log2_nonneg n); lia|].
    simpl. destruct (Z.ltb_spec 0 n); [|lia].
    destruct (Z.ltb_spec 0 (n / tokens_size)) as [Hq|Hq].
    + pose proof (log2_div_tokens n Hq). apply IH; right; lia.
    + by rewrite !makeString_loop_nonpositive.
Qed.

(** X14: one iteration of the loop: for a positive [n], [makeString n] is
    the token at index [n mod 21] followed by [makeString (n / 21)]. *)
Theorem makeString_step n :
  (0 < n)%Z ->
  makeString n = token (n mod 21) +:+ makeString (n / 21).
Proof.
  intros Hn. unfold makeString. simpl makeString_loop at 1.
  destruct (Z.ltb_spec 0 n); [|lia].
  rewrite makeString_loop_result, string_app_nil_l.
  change tokens_size with 21%Z. f_equal.
  destruct (Z.ltb_spec 0 (n / 21)) as [Hq|Hq].
  - pose proof (log2_div_tokens n Hq) as Hlog.
    change tokens_size with 21%Z in Hlog.
    pose proof (Z.log2_nonneg (n / 21)).
    apply makeString_loop_fuel; right; lia.
  - rewrite !makeString_loop_nonpositive; done.
Qed.

Lemma makeString_step_witness :
  makeString 22 = token (22 mod 21) +:+ makeString (22 / 21).
Proof. apply (makeString_step 22). reflexivity. Defined.

Lemma makeString_nonpositive n : (n <= 0)%Z -> makeString n = "".
Proof. intros Hn. by apply makeString_loop_nonpositive. Qed.

Lemma string_length_zero (s : string) : String.length s = 0%nat -> s = "".
Proof. by destruct s. Qed.

(** X15: [makeString] returns the empty string exactly for the arguments
    that never enter the loop, zero and the negative numbers. *)
Theorem makeString_empty_iff n : makeString n = "" <-> (n <= 0)%Z.
Proof.
  split; [|apply makeString_nonpositive].
  intros He. destruct (Z.ltb_spec 0 n) as [Hn|Hn]; [|done].
  rewrite makeString_step in He by done.
  apply (f_equal String.length) in He.
  rewrite string_app_length in He. simpl in He.
  pose proof (token_length (n mod 21) (Z.mod_pos_bound n 21 eq_refl)). lia.
Qed.

Lemma makeString_inj_positive n : forall m,
  (0 < n)%Z -> (0 < m)%Z -> makeString n = makeString m -> n = m.
Proof.
  induction n as [n IH] using (well_founded_induction (Z.lt_wf 0)).
  intros m Hn Hm He.
  rewrite (makeString_step n), (makeString_step m) in He by done.
  pose proof (Z.mod_pos_bound n 21 eq_refl) as Hrn.
  pose proof (Z.mod_pos_bound m 21 eq_refl) as Hrm.
  assert (Hr : (n mod 21 = m mod 21)%Z).
  { destruct (app_eq_startsWith _ _ _ _ He) as [Hp|Hp].
    - by apply tokens_prefix_free.
    - symmetry. by apply tokens_prefix_free. }
  rewrite Hr in He. apply String.app_inj in He.
  assert (Hq : (n / 21 = m / 21)%Z).
  { destruct (Z.ltb_spec 0 (n / 21)) as [Hqn|Hqn];
      destruct (Z.ltb_spec 0 (m / 21)) as [Hqm|Hqm].
    - apply IH; [|done..]. split; [lia|]. apply Z.div_lt; lia.
    - rewrite (makeString_nonpositive (m / 21)) in He by done.
      apply makeString_empty_iff in He. lia.
    - rewrite (makeString_nonpositive (n / 21)) in He by done.
      symmetry in He. apply makeString_empty_iff in He. lia.
    - pose proof (Z.div_pos n 21). pose proof (Z.div_pos m 21). lia. }
  rewrite (Z.div_mod n 21), (Z.div_mod m 21) by lia. lia.
Qed.

(** X16: [makeString] is injective on the positive numbers: because no
    token starts with another token, two different positive arguments
    never give the same string. *)
Theorem makeString_distinct n m :
  (0 < n)%Z -> (0 < m)%Z -> n <> m -> makeString n <> makeString m.
Proof.
  intros Hn Hm Hne He. apply Hne. by apply makeString_inj_positive.
Qed.

Lemma makeString_distinct_witness : makeString 20 <> makeString 440.
Proof.
  apply (makeString_distinct 20 440); [reflexivity | reflexivity | discriminate].
Defined.

(** X17: a positive [n] with [k + 1] digits in base 21 gives a string of
    [k + 1] tokens, hence of at least [3 (k + 1)] and at most [11 (k + 1)]
    characters. *)
Theorem makeString_length k : forall n,
  (21 ^ Z.of_nat k <= n < 21 ^ Z.of_nat (S k))%Z ->
  (3 * (k + 1) <= String.length (makeString n) <= 11 * (k + 1))%nat.
Proof.
  induction k as [|k IH]; intros n Hn.
  - change (21 ^ Z.of_nat 0)%Z with 1%Z in Hn.
    change (21 ^ Z.of_nat 1)%Z with 21%Z in Hn.
    rewrite makeString_step by lia.
    rewrite (makeString_nonpositive (n / 21)), string_app_nil_r.
    + pose proof (token_length (n mod 21) (Z.mod_pos_bound n 21 eq_refl)). lia.
    + rewrite Z.div_small; lia.
  - assert (Hpos : (0 < 21 ^ Z.of_nat (S k))%Z) by (apply Z.pow_pos_nonneg; lia).
    rewrite makeString_step by lia. rewrite string_app_length.
    pose proof (token_length (n mod 21) (Z.mod_pos_bound n 21 eq_refl)).
    assert (Hq : (21 ^ Z.of_nat k <= n / 21 < 21 ^ Z.of_nat (S k))%Z).
    { rewrite !Nat2Z.inj_succ, !Z.pow_succ_r in Hn by lia.
      rewrite Nat2Z.inj_succ, Z.pow_succ_r by lia.
      split.
      - apply Z.div_le_lower_bound; lia.
      - apply Z.div_lt_upper_bound; lia. }
    specialize (IH _ Hq). lia.
Qed.

Lemma makeString_length_witness :
  (3 * (7 + 1) <= String.length (makeString 2147483647) <= 11 * (7 + 1))%nat.
Proof.
  apply (makeString_length 7 2147483647). vm_compute.
  split; [discriminate | reflexivity].
Defined.
